(** * Transaction Analyzer: the dataframe pipeline of [calculate.py]

    The script loads a sheet of transactions, drops incomplete rows, derives
    calendar columns, narrows the frame by year, account code and month, and
    shows three metrics, a pivot table and two charts.  The frames are
    modelled as lists of rows, the derived columns as functions of a row, and
    the calls into the UI framework as events written by a small
    writer-and-exception monad.

    The numbers of the amount column and the reductions pandas applies to
    them are kept abstract (class [Arithmetic]): a sum is whatever
    [Series.sum] returns for the column's values in frame order, with its
    rounding or wrapping, and no law of exact arithmetic is assumed. *)

From Stdlib Require Import List String Ascii ZArith QArith Bool Arith Lia.
From Stdlib Require Import DecimalString OrderedTypeEx.
From Stdlib Require Import Sorting.Sorted Sorting.Permutation.
Import ListNotations.
Local Close Scope Q_scope.
Local Open Scope string_scope.
Local Open Scope list_scope.
Local Open Scope Z_scope.

(** ** Data model *)

Inductive month : Type :=
| Jan | Feb | Mar | Apr | May | Jun | Jul | Aug | Sep | Oct | Nov | Dec.

(** [dt.month] *)
Definition month_number (m : month) : nat :=
  match m with
  | Jan => 1 | Feb => 2 | Mar => 3 | Apr => 4 | May => 5 | Jun => 6
  | Jul => 7 | Aug => 8 | Sep => 9 | Oct => 10 | Nov => 11 | Dec => 12
  end%nat.

(** [dt.strftime('%b')] *)
Definition strftime_b (m : month) : string :=
  match m with
  | Jan => "Jan" | Feb => "Feb" | Mar => "Mar" | Apr => "Apr"
  | May => "May" | Jun => "Jun" | Jul => "Jul" | Aug => "Aug"
  | Sep => "Sep" | Oct => "Oct" | Nov => "Nov" | Dec => "Dec"
  end.

Record Timestamp : Type := mkTimestamp
  { ts_year : Z; ts_month : month; ts_day : nat }.

(** ** The arithmetic of the amount column

    [amount] is the type of the cells of [Base Amount] (float64 or int64)
    and of their sums, [float] the type of a mean.  [Series_sum] is the
    reduction behind [Series.sum] and behind [aggfunc='sum'], applied to the
    values of a column in frame order; [finite_mean] is [Series.mean] on a
    column with at least one value.  The two formats are Python's
    [{:,.2f}] on a sum and on a finite mean.  The only laws are that an empty
    column sums to 0, that 0 prints as [0.00] and that a finite mean never
    prints as [nan]. *)
Class Arithmetic : Type := mkArithmetic
  { amount : Type;
    zero : amount;
    Series_sum : list amount -> amount;
    float : Type;
    finite_mean : list amount -> float;
    format_amount : amount -> string;
    format_float : float -> string;
    Series_sum_empty : Series_sum [] = zero;
    format_amount_zero : format_amount zero = "0.00";
    format_float_finite : forall x : float, format_float x <> "nan" }.

Section Pipeline.
Context {Ar : Arithmetic}.

(** A row of the frame [read_excel] returns: a null cell is [None].  The
    frame is taken as pandas has parsed it: a cell that was empty in the
    sheet, or held an NA-like text that [read_excel] reads as missing, is
    null; a date cell is a timestamp, which [pd.to_datetime] leaves as it
    is; the account codes are text, as the sheet declares the column. *)
Record RawRow : Type := mkRaw
  { raw_date : option Timestamp;
    raw_code : option string;
    raw_amount : option amount }.

(** A row of [df] after [dropna]: the three required columns. *)
Record Row : Type := mkRow
  { Transaction_Date : Timestamp;
    Account_Code : string;
    Base_Amount : amount }.

(** The derived columns [Year], [Month] and [Month_Num]. *)
Definition Year (r : Row) : Z := ts_year (Transaction_Date r).
Definition Month (r : Row) : string := strftime_b (ts_month (Transaction_Date r)).
Definition Month_Num (r : Row) : nat := month_number (ts_month (Transaction_Date r)).

(** ** Loader *)

Definition notna {A : Type} (o : option A) : bool :=
  match o with Some _ => true | None => false end.

Definition complete (r : RawRow) : bool :=
  notna (raw_date r) && notna (raw_code r) && notna (raw_amount r).

(** [df.dropna(subset=['Transaction Date', 'Account Code', 'Base Amount'])] *)
Definition dropna (sheet : list RawRow) : list RawRow := filter complete sheet.

Definition to_row (r : RawRow) : option Row :=
  match raw_date r, raw_code r, raw_amount r with
  | Some d, Some c, Some a => Some (mkRow d c a)
  | _, _, _ => None
  end.

Definition of_row (r : Row) : RawRow :=
  mkRaw (Some (Transaction_Date r)) (Some (Account_Code r)) (Some (Base_Amount r)).

Fixpoint typed (rows : list RawRow) : list Row :=
  match rows with
  | [] => []
  | r :: rest =>
      match to_row r with
      | Some x => x :: typed rest
      | None => typed rest
      end
  end.

(** Lines 58-65: the frame [df] the rest of the script works on. *)
Definition load (sheet : list RawRow) : list Row := typed (dropna sheet).

(** ** Filter engine *)

(** [Series.isin] *)
Definition isin (x : string) (l : list string) : bool := existsb (String.eqb x) l.

(** [df[df['Year'] == selected_year]] *)
Definition df_year (df : list Row) (selected_year : Z) : list Row :=
  filter (fun r => Year r =? selected_year) df.

(** Lines 83-86. *)
Definition filtered_df (dfy : list Row) (selected_codes selected_months : list string)
  : list Row :=
  filter (fun r => isin (Account_Code r) selected_codes
                   && isin (Month r) selected_months) dfy.

(** The two steps together: the spec's [filter(records, year, account_codes, months)]. *)
Definition filter_records (records : list Row) (year : Z)
           (account_codes months : list string) : list Row :=
  filtered_df (df_year records year) account_codes months.

(** ** Python and pandas primitives *)

(** [Series.unique]: the distinct values in order of first appearance. *)
Fixpoint unique (l : list string) : list string :=
  match l with
  | [] => []
  | x :: rest => x :: filter (fun y => negb (x =? y)%string) (unique rest)
  end.

Section Sorting.
Context {A : Type} (le : A -> A -> bool).

Fixpoint insert_sorted (x : A) (l : list A) : list A :=
  match l with
  | [] => [x]
  | y :: rest => if le x y then x :: l else y :: insert_sorted x rest
  end.

(** A stable sort, as Python's [sorted] is: of two elements that compare
    equal the one that came first stays first. *)
Fixpoint sort_with (l : list A) : list A :=
  match l with
  | [] => []
  | x :: rest => insert_sorted x (sort_with rest)
  end.
End Sorting.

(** [sorted(l)] on strings, and the order [groupby] puts its keys in.
    Account codes are text here; no result below depends on which total
    order the codes are sorted by, only on the keys being distinct. *)
Definition sorted_strings (l : list string) : list string := sort_with String.leb l.

(** A float that may be NaN. *)
Inductive pyfloat : Type :=
| FNaN
| Fin (x : float).

(** [Series.mean]: NaN on an empty series, no exception. *)
Definition Series_mean (l : list amount) : pyfloat :=
  match l with
  | [] => FNaN
  | _ :: _ => Fin (finite_mean l)
  end.

(** A Python [dict] from strings to numbers: a key is kept where it was
    first inserted and a later insertion overwrites its value. *)
Definition dict : Type := list (string * nat).

Fixpoint dict_set (d : dict) (k : string) (v : nat) : dict :=
  match d with
  | [] => [(k, v)]
  | (k', v') :: rest =>
      if (k' =? k)%string then (k', v) :: rest else (k', v') :: dict_set rest k v
  end.

Fixpoint dict_get (d : dict) (k : string) : option nat :=
  match d with
  | [] => None
  | (k', v) :: rest => if (k' =? k)%string then Some v else dict_get rest k
  end.

(** [dict(zip(keys, values))] *)
Definition dict_zip (keys : list string) (values : list nat) : dict :=
  fold_left (fun d kv => dict_set d (fst kv) (snd kv)) (combine keys values) [].

(** ** Sidebar: the options offered to the user (lines 74-80) *)

Definition account_codes (dfy : list Row) : list string :=
  sorted_strings (unique (map Account_Code dfy)).

Definition month_options (dfy : list Row) : list string := unique (map Month dfy).

Definition month_map (dfy : list Row) : dict :=
  dict_zip (map Month dfy) (map Month_Num dfy).

(** [month_map[m]] inside the sort key; a label outside the map would raise
    [KeyError], which [month_map_covers] below rules out for the options. *)
Definition month_key (mm : dict) (m : string) : nat :=
  match dict_get mm m with Some n => n | None => 0%nat end.

Definition sorted_months (dfy : list Row) : list string :=
  sort_with (fun a b => (month_key (month_map dfy) a <=? month_key (month_map dfy) b)%nat)
            (month_options dfy).

(** What a multiselect can return: distinct options, in the order the user
    picked them. *)
Definition multiselect_value (options selection : list string) : Prop :=
  NoDup selection /\ incl selection options.

(** ** Aggregator *)

(** [groupby(key)] with a sum of [Base Amount]: one entry per distinct key,
    the keys in ascending order. *)
Definition group_keys (key : Row -> string) (data : list Row) : list string :=
  sorted_strings (unique (map key data)).

Definition group_sum (key : Row -> string) (data : list Row) (k : string) : amount :=
  Series_sum (map Base_Amount (filter (fun r => (key r =? k)%string) data)).

Definition groupby_sum (key : Row -> string) (data : list Row) : list (string * amount) :=
  map (fun k => (k, group_sum key data k)) (group_keys key data).

(** Lines 90-93 as values: the spec's [summaryMetrics]. *)
Record Metrics : Type := mkMetrics
  { count : nat; totalAmount : amount; averageAmount : pyfloat }.

Definition summaryMetrics (subset : list Row) : Metrics :=
  mkMetrics (List.length subset)
            (Series_sum (map Base_Amount subset))
            (Series_mean (map Base_Amount subset)).

(** A cell of a frame of numbers. *)
Inductive cell : Type :=
| NaN
| Num (a : amount).

(** A frame indexed by account code: the column labels, and per index label
    one cell for each column. *)
Record Frame : Type := mkFrame
  { columns : list string;
    rows : list (string * list cell) }.

Definition index (f : Frame) : list string := map fst (rows f).

Definition fillna (v : amount) (c : cell) : cell :=
  match c with NaN => Num v | Num a => Num a end.

(** The sum of one (account code, month) group; a combination without rows
    is missing after the unstack. *)
Definition agg_cell (data : list Row) (code m : string) : cell :=
  match filter (fun r => (Account_Code r =? code)%string && (Month r =? m)%string) data with
  | [] => NaN
  | r :: grp => Num (Series_sum (map Base_Amount (r :: grp)))
  end.

(** [pd.pivot_table(data, index='Account Code', columns='Month',
    values='Base Amount', aggfunc='sum', fill_value=0)] *)
Definition pivot_table (data : list Row) : Frame :=
  let cols := group_keys Month data in
  mkFrame cols
          (map (fun code => (code, map (fun m => fillna zero (agg_cell data code m)) cols))
               (group_keys Account_Code data)).

Fixpoint lookup_cell (cols : list string) (cells : list cell) (m : string) : option cell :=
  match cols, cells with
  | c :: cs, v :: vs => if (c =? m)%string then Some v else lookup_cell cs vs m
  | _, _ => None
  end.

(** [frame.reindex(columns=labels, fill_value=v)]: the columns become
    [labels], in that order; a label the frame did not have is filled. *)
Definition reindex_columns (f : Frame) (labels : list string) (fill_value : amount) : Frame :=
  mkFrame labels
          (map (fun row =>
                  (fst row,
                   map (fun m => match lookup_cell (columns f) (snd row) m with
                                 | Some v => v
                                 | None => Num fill_value
                                 end) labels))
               (rows f)).

(** Lines 101-111: the spec's [pivotByAccountAndMonth]. *)
Definition pivot (filtered : list Row) (selected_months : list string) : Frame :=
  reindex_columns (pivot_table filtered) selected_months zero.

(** Lines 114-120: the spec's [totalByAccount].  [pivot_table] ends by
    dropping every column that holds no value, so on data without rows the
    result has no column at all. *)
Definition total_pivot (dfy : list Row) (selected_codes : list string) : Frame :=
  let data := filter (fun r => isin (Account_Code r) selected_codes) dfy in
  match data with
  | [] => mkFrame [] []
  | _ :: _ =>
      mkFrame ["Base Amount"]
              (map (fun code => (code, [Num (group_sum Account_Code data code)]))
                   (group_keys Account_Code data))
  end.

Inductive exn : Type :=
| NameError (name : string)
| ValueError (msg : string)
| ImportError (msg : string)
| StreamlitAPIException (msg : string).

Fixpoint lookup_row (rs : list (string * list cell)) (k : string) : option (list cell) :=
  match rs with
  | [] => None
  | (k', cells) :: rest => if (k' =? k)%string then Some cells else lookup_row rest k
  end.

(** The value of the one column of [value] at index label [k], NaN where
    [value] has no such label (alignment on the index). *)
Definition aligned (value : Frame) (k : string) : cell :=
  match lookup_row (rows value) k with
  | Some (v :: _) => v
  | _ => NaN
  end.

(** A frame without rows takes over the index of the first non-empty value
    assigned to it, its existing columns filled with NaN. *)
Definition ensure_valid_index (f value : Frame) : Frame :=
  match rows f, rows value with
  | [], _ :: _ =>
      mkFrame (columns f)
              (map (fun row => (fst row, map (fun _ => NaN) (columns f))) (rows value))
  | _, _ => f
  end.

(** Line 121, [pivot['Total'] = total_pivot]: a frame can be assigned to one
    column only if it has exactly one column; its values are aligned on the
    index.  No month label is ["Total"], so the column is new and comes
    last. *)
Definition set_Total (f value : Frame) : exn + Frame :=
  let f' := ensure_valid_index f value in
  match columns value with
  | [] => inl (ValueError "Cannot set a DataFrame without columns to the column Total")
  | [_] =>
      inr (mkFrame (columns f' ++ ["Total"])
                   (map (fun row => (fst row, snd row ++ [aligned value (fst row)]))
                        (rows f')))
  | _ :: _ :: _ =>
      inl (ValueError
             "Cannot set a DataFrame with multiple columns to the single column Total")
  end.

(** The table line 124 displays. *)
Definition pivot_with_total (dfy : list Row) (selected_codes selected_months : list string)
  : exn + Frame :=
  set_Total (pivot (filtered_df dfy selected_codes selected_months) selected_months)
            (total_pivot dfy selected_codes).

(** Lines 128-130: the spec's [monthlyTotals].  A row is the month label, the
    summed amount and the month number looked up in [month_map], which is
    missing (NaN) for a label outside the map; [sort_values] puts missing
    keys last.  The rows of a filtered subset carry distinct numbers, so
    the result is the same for any sorting algorithm. *)
Definition MonthlyRow : Type := (string * amount * option nat)%type.

Definition month_num_le (a b : MonthlyRow) : bool :=
  match snd a, snd b with
  | Some x, Some y => (x <=? y)%nat
  | Some _, None => true
  | None, Some _ => false
  | None, None => true
  end.

Definition monthly_totals (mm : dict) (filtered : list Row) : list MonthlyRow :=
  sort_with month_num_le
            (map (fun kv => (fst kv, snd kv, dict_get mm (fst kv)))
                 (groupby_sum Month filtered)).

(** Line 148: the spec's [accountTotals]. *)
Definition code_totals (filtered : list Row) : list (string * amount) :=
  groupby_sum Account_Code filtered.

(** ** Presentation: Python's number formats *)

Definition digits (n : N) : string := NilZero.string_of_uint (N.to_uint n).

(** The digits from the least significant one, a comma after every third
    digit that has a digit after it; [k] counts the digits of the group. *)
Fixpoint commas_rev (ds : list ascii) (k : nat) : list ascii :=
  match ds with
  | [] => []
  | d :: rest =>
      match k with
      | 3%nat => ","%char :: d :: commas_rev rest 1
      | _ => d :: commas_rev rest (S k)
      end
  end.

(** [f"{n:,}"] for a natural number *)
Definition fmt_thousands (n : N) : string :=
  string_of_list_ascii (rev (commas_rev (rev (list_ascii_of_string (digits n))) 0)).

Definition two_digits (n : N) : string :=
  if (n <? 10)%N then "0" ++ digits n else digits n.

(** The nearest integer, a tie going to the even one. *)
Definition round_half_even (q : Q) : Z :=
  let d := Z.pos (Qden q) in
  let fl := Qnum q / d in
  match 2 * (Qnum q mod d) ?= d with
  | Lt => fl
  | Gt => fl + 1
  | Eq => if Z.even fl then fl else fl + 1
  end.

(** [{:,.2f}] on an exact number of hundredths, rounded to a whole number
    of hundredths; used by the sample arithmetic only. *)
Definition format_hundredths (q : Q) : string :=
  let h := Z.to_N (Z.abs (round_half_even q)) in
  (if Qnum q <? 0 then "-" else "")
    ++ fmt_thousands (h / 100) ++ "." ++ two_digits (h mod 100).

(** [f"{x:,.2f}"] on a float: NaN prints as [nan]. *)
Definition fmt_comma_2f (x : pyfloat) : string :=
  match x with
  | FNaN => "nan"
  | Fin v => format_float v
  end.

(** [str(n)] for an integer *)
Definition str_int (z : Z) : string :=
  (if z <? 0 then "-" else "") ++ digits (Z.to_N (Z.abs z)).

(** [needle in hay] on strings *)
Fixpoint contains (needle hay : string) : bool :=
  prefix needle hay
  || match hay with
     | EmptyString => false
     | String _ rest => contains needle rest
     end.

(** ** The script as a program over UI events

    A call into the UI framework is recorded as an event; an input widget
    is recorded by its label and its return value is the one the session
    holds.  Labels are given without their leading pictograph.  The calls
    return normally, except [st.set_page_config], which the pinned framework
    (streamlit 1.36.0) accepts only before anything else was shown. *)

Inductive figure : Type :=
| bar_fig (data : list MonthlyRow)
| pie_fig (data : list (string * amount)).

Inductive ui_event : Type :=
| st_success (body : string)
| st_error (body : string)
| st_warning (body : string)
| st_write (body : string)
| st_code (body : string)
| st_set_page_config
| st_title (body : string)
| st_markdown (body : string)
| st_header (body : string)
| st_subheader (body : string)
| st_divider
| st_download_button (label : string)
| st_file_uploader (label : string)
| st_selectbox (label : string)
| st_multiselect (label : string) (options : list string)
| st_metric (label value : string)
| st_dataframe (table : Frame)
| st_plotly_chart (fig : figure).

(** What was shown so far, and either the exception that ended the run or a
    result. *)
Definition Script (A : Type) : Type := (list ui_event * (exn + A))%type.

Definition ret {A : Type} (a : A) : Script A := ([], inr a).

Definition bind {A B : Type} (m : Script A) (k : A -> Script B) : Script B :=
  match m with
  | (out, inl e) => (out, inl e)
  | (out, inr a) => let (out', r) := k a in (out ++ out', r)
  end.

Definition emit (e : ui_event) : Script unit := ([e], inr tt).

Definition lift {A : Type} (r : exn + A) : Script A := ([], r).

(** [try: body  except NameError: handler] *)
Definition try_except_NameError (body handler : Script unit) : Script unit :=
  match body with
  | (out, inl (NameError _)) => let (out', r) := handler in (out ++ out', r)
  | other => other
  end.

Declare Scope script_scope.
Delimit Scope script_scope with script.
Notation "x <- m ;; k" := (bind m (fun x => k))
  (at level 61, m at next level, right associativity) : script_scope.
Notation "m ;; k" := (bind m (fun _ => k))
  (at level 61, right associativity) : script_scope.
Local Open Scope script_scope.

(** How lines 7-8 end: both imports succeed, one raises
    [ModuleNotFoundError], or one raises another [ImportError], which line 10
    does not catch. *)
Inductive import_outcome : Type :=
| Imported
| ModuleNotFoundError (msg : string)
| OtherImportError (msg : string).

Inductive pip_outcome : Type :=
| pip_output (text : string)
| CalledProcessError (msg : string).

(** Everything one run reads from outside. *)
Record Session : Type := mkSession
  { plotly : import_outcome;
    sys_version : string;
    pip_list : pip_outcome;
    uploaded_file : option (list RawRow);
    selected_year : Z;
    selected_codes : list string;
    selected_months : list string }.

(** Lines 6-26. *)
Definition import_plotly (s : Session) : Script unit :=
  match plotly s with
  | Imported => emit (st_success "Plotly and Plotly Express are installed!")
  | ModuleNotFoundError e =>
      emit (st_error ("Failed to import package: " ++ e)) ;;
      emit (st_write ("Python version: " ++ sys_version s)) ;;
      match pip_list s with
      | pip_output text =>
          emit (st_write "Installed packages:") ;;
          emit (st_code text) ;;
          if negb (contains "plotly" text)
          then emit (st_error "Plotly is not installed in the environment.")
          else emit (st_write "Plotly is listed as installed, but import failed. Possible version mismatch or corrupted install.")
      | CalledProcessError e' => emit (st_error ("Failed to run pip list: " ++ e'))
      end ;;
      emit (st_write "Proceeding with the app despite the error (charts may not work).")
  | OtherImportError e => (([] : list ui_event), inl (ImportError e))
  end.

(** Evaluating the name [px], bound only by a successful import. *)
Definition px (s : Session) : Script unit :=
  match plotly s with
  | Imported => ret tt
  | ModuleNotFoundError _ | OtherImportError _ =>
      (([] : list ui_event), inl (NameError "px"))
  end.

(** Lines 89-93. *)
Definition KPIs (filtered : list Row) : Script unit :=
  emit (st_markdown "### Key Metrics") ;;
  emit (st_metric "Total Transactions" (fmt_thousands (N.of_nat (List.length filtered)))) ;;
  emit (st_metric "Total Amount"
          ("$" ++ format_amount (Series_sum (map Base_Amount filtered)))) ;;
  emit (st_metric "Avg per Transaction"
          ("$" ++ fmt_comma_2f (Series_mean (map Base_Amount filtered)))).

(** Lines 126-160. *)
Definition charts (s : Session) (mm : dict) (filtered : list Row) : Script unit :=
  emit (st_subheader "Monthly Total Amount") ;;
  try_except_NameError
    (px s ;; emit (st_plotly_chart (bar_fig (monthly_totals mm filtered))))
    (emit (st_warning "Bar chart cannot be displayed because Plotly is not available.")) ;;
  emit (st_subheader "Amount Distribution by Account Code") ;;
  try_except_NameError
    (px s ;; emit (st_plotly_chart (pie_fig (code_totals filtered))))
    (emit (st_warning "Pie chart cannot be displayed because Plotly is not available.")).

(** Lines 56-160. *)
Definition dashboard (s : Session) (sheet : list RawRow) : Script unit :=
  let df := load sheet in
  emit (st_header "Filters") ;;
  emit (st_selectbox "Select Year") ;;
  let dfy := df_year df (selected_year s) in
  emit (st_multiselect "Select Account Codes" (account_codes dfy)) ;;
  emit (st_multiselect "Select Months" (sorted_months dfy)) ;;
  let filtered := filtered_df dfy (selected_codes s) (selected_months s) in
  KPIs filtered ;;
  emit st_divider ;;
  emit (st_subheader ("Pivot Table for " ++ str_int (selected_year s))) ;;
  table <- lift (pivot_with_total dfy (selected_codes s) (selected_months s)) ;;
  emit (st_dataframe table) ;;
  charts s (month_map dfy) filtered.

(** Line 33.  [shown] is what the run has shown so far: the call is
    accepted only as the first command of the run. *)
Definition set_page_config (shown : list ui_event) : Script unit :=
  match shown with
  | [] => emit st_set_page_config
  | _ :: _ =>
      (([] : list ui_event),
       inl (StreamlitAPIException
              "set_page_config() can only be called once per app page, and must be called as the first Streamlit command in your script."))
  end.

(** Lines 35-160, where the available source ends. *)
Definition page (s : Session) : Script unit :=
  emit (st_title "Transaction Analyzer") ;;
  emit (st_markdown "Analyze transaction amounts by **Account Code**, with filters, pivot tables, charts, and Excel export.") ;;
  emit (st_markdown "### Download Dependencies") ;;
  emit (st_download_button "Download requirements.txt") ;;
  emit st_divider ;;
  emit (st_file_uploader "Upload Excel File") ;;
  match uploaded_file s with
  | None => ret tt
  | Some sheet => dashboard s sheet
  end.

(** The script up to line 160. *)
Definition script (s : Session) : Script unit :=
  import_plotly s ;;
  set_page_config (fst (import_plotly s)) ;;
  page s.

(** ** Reference definitions, in the spec's words *)



Definition all_months : list month :=
  [Jan; Feb; Mar; Apr; May; Jun; Jul; Aug; Sep; Oct; Nov; Dec].

(** The calendar number (January = 1 ... December = 12) of a month label. *)
Definition label_month_number (label : string) : option nat :=
  option_map month_number (find (fun m => (strftime_b m =? label)%string) all_months).

(** Month labels in calendar order, each earlier in the year than the next. *)
Definition calendar_ordered (labels : list string) : Prop :=
  StronglySorted (fun a b => exists x y, label_month_number a = Some x
                                         /\ label_month_number b = Some y
                                         /\ (x < y)%nat) labels.

(** The same session with another outcome of the import. *)
Definition with_plotly (s : Session) (p : import_outcome) : Session :=
  mkSession p (sys_version s) (pip_list s) (uploaded_file s)
            (selected_year s) (selected_codes s) (selected_months s).

(** A chart replaced by the warning of its [except NameError] branch. *)
Definition degrade (e : ui_event) : ui_event :=
  match e with
  | st_plotly_chart (bar_fig _) =>
      st_warning "Bar chart cannot be displayed because Plotly is not available."
  | st_plotly_chart (pie_fig _) =>
      st_warning "Pie chart cannot be displayed because Plotly is not available."
  | other => other
  end.

(** An output of the dashboard proper: a metric, the table or a chart. *)
Definition is_result (e : ui_event) : bool :=
  match e with
  | st_metric _ _ | st_dataframe _ | st_plotly_chart _ => true
  | _ => false
  end.

(** [needle] occurs in [hay]. *)
Definition occurs_in (needle hay : string) : Prop :=
  exists before after : string, hay = (before ++ needle ++ after)%string.

(** A warning or an error shown to the user. *)
Definition is_alert (e : ui_event) : bool :=
  match e with
  | st_warning _ | st_error _ => true
  | _ => false
  end.

(** [df['Year'].unique()] *)
Fixpoint unique_years (l : list Z) : list Z :=
  match l with
  | [] => []
  | x :: rest => x :: filter (fun y => negb (x =? y)) (unique_years rest)
  end.

(** Line 71, the options of the year selectbox:
    [sorted(df['Year'].unique(), reverse=True)]. *)
Definition year_options (df : list Row) : list Z :=
  sort_with (fun a b => b <=? a) (unique_years (map Year df)).

(** The table or a chart, or the warning that stands for a chart. *)
Definition is_table_or_chart (e : ui_event) : bool :=
  match e with
  | st_dataframe _ | st_plotly_chart _ | st_warning _ => true
  | _ => false
  end.

End Pipeline.

(** ** A sample arithmetic and sample data

    Amounts that are whole numbers of hundredths, small enough for every sum
    to be exact; pandas computes the same sums on them.  It serves to
    evaluate the pipeline on concrete sheets. *)

Lemma list_ascii_of_string_app (a b : string) :
  list_ascii_of_string (a ++ b) = (list_ascii_of_string a ++ list_ascii_of_string b)%list.
Proof. induction a as [| c a IH]; simpl; [reflexivity | now rewrite IH]. Qed.

Lemma format_hundredths_finite (q : Q) : format_hundredths q <> "nan".
Proof.
  unfold format_hundredths. intros H.
  apply (f_equal list_ascii_of_string) in H.
  rewrite !list_ascii_of_string_app in H.
  match type of H with
  | (?a ++ ?b ++ ?c ++ ?d)%list = _ =>
      assert (Hin : In "."%char (a ++ b ++ c ++ d)%list)
        by (apply in_or_app; right; apply in_or_app; right; now left)
  end.
  rewrite H in Hin. simpl in Hin. intuition discriminate.
Qed.

#[global] Instance exact_hundredths : Arithmetic :=
  {| amount := Z;
     zero := 0;
     Series_sum := fun l => fold_left Z.add l 0;
     float := Q;
     finite_mean := fun l => Qmake (fold_left Z.add l 0) (Pos.of_nat (List.length l));
     format_amount := fun z => format_hundredths (inject_Z z);
     format_float := format_hundredths;
     Series_sum_empty := eq_refl;
     format_amount_zero := eq_refl;
     format_float_finite := format_hundredths_finite |}.

Definition sample_sheet : list RawRow :=
  [ mkRaw (Some (mkTimestamp 2024 Jan 5)) (Some "A100") (Some 5000);
    mkRaw (Some (mkTimestamp 2024 Feb 10)) (Some "A100") (Some 3000);
    mkRaw None (Some "A100") (Some 1234);
    mkRaw (Some (mkTimestamp 2024 Jan 20)) (Some "B200") (Some 2000);
    mkRaw (Some (mkTimestamp 2024 Mar 2)) (Some "B200") None;
    mkRaw (Some (mkTimestamp 2024 Mar 7)) (Some "C300") (Some 700);
    mkRaw (Some (mkTimestamp 2023 Dec 24)) (Some "A100") (Some 900) ].

Definition sample_session (p : import_outcome) (codes months : list string) : Session :=
  mkSession p "3.11.9" (pip_output "pandas 2.2.2") (Some sample_sheet) 2024 codes months.

(** ** Proof automation *)

(** Membership of an event in a run whose events are explicit. *)
Ltac in_events := cbn; repeat first [left; reflexivity | right].

(** A concrete selection is made of distinct options. *)
Ltac valid_selection :=
  split; [repeat constructor; simpl; intuition discriminate
         | intros x Hx; simpl in Hx |- *; intuition].

Section Facts.
Context {Ar : Arithmetic}.

(** ** Facts about the loader and the filter *)

Lemma isin_In (x : string) (l : list string) : isin x l = true <-> In x l.
Proof.
  unfold isin. rewrite existsb_exists. split.
  - intros [y [Hy Heq]]. apply String.eqb_eq in Heq. now subst.
  - intros H. exists x. split; [assumption | apply String.eqb_refl].
Qed.

Lemma complete_iff (r : RawRow) :
  complete r = true <->
  raw_date r <> None /\ raw_code r <> None /\ raw_amount r <> None.
Proof.
  unfold complete.
  destruct (raw_date r), (raw_code r), (raw_amount r); simpl;
    split; try discriminate; try (intros (H1 & H2 & H3); congruence);
    intros _; repeat split; discriminate.
Qed.

Lemma typed_complete (rows : list RawRow) :
  Forall (fun r => complete r = true) rows -> map of_row (typed rows) = rows.
Proof.
  induction 1 as [| r rest Hr _ IH]; simpl; [reflexivity |].
  unfold complete in Hr. unfold to_row.
  destruct r as [[d|] [c|] [a|]]; simpl in *; try discriminate.
  now rewrite IH.
Qed.

Lemma filter_records_In (records : list Row) (year : Z)
      (account_codes months : list string) (r : Row) :
  In r (filter_records records year account_codes months) <->
  In r records /\ Year r = year /\ In (Account_Code r) account_codes
  /\ In (Month r) months.
Proof.
  unfold filter_records, filtered_df, df_year.
  rewrite !filter_In, andb_true_iff, !isin_In, Z.eqb_eq. tauto.
Qed.

Lemma filter_filter_same {A : Type} (p : A -> bool) (l : list A) :
  filter p (filter p l) = filter p l.
Proof.
  induction l as [| x l IH]; simpl; [reflexivity |].
  destruct (p x) eqn:E; simpl; [rewrite E, IH; reflexivity | exact IH].
Qed.

(** ** The loader and the filter: main results *)

(** C7: after loading, every retained row has a transaction date, an account
    code and a base amount; a row of the sheet is retained exactly when none
    of the three is null, the retained rows keep their order, every one of them
    becomes a record of [df], and the loader is a total function, so a
    dropped row raises nothing. *)
Theorem load_drops_null_rows (sheet : list RawRow) :
  Forall (fun r => raw_date r <> None /\ raw_code r <> None /\ raw_amount r <> None)
         (dropna sheet)
  /\ (forall r, In r (dropna sheet) <->
                In r sheet /\ raw_date r <> None /\ raw_code r <> None
                /\ raw_amount r <> None)
  /\ map of_row (load sheet) = dropna sheet
  /\ (forall r, In r sheet ->
        raw_date r = None \/ raw_code r = None \/ raw_amount r = None ->
        ~ In r (map of_row (load sheet))).
Proof.
  assert (Hall : Forall (fun r => complete r = true) (dropna sheet)).
  { apply Forall_forall. intros r Hr. apply filter_In in Hr. tauto. }
  assert (Hload : map of_row (load sheet) = dropna sheet)
    by (apply typed_complete; exact Hall).
  split; [| split; [| split]].
  - eapply Forall_impl; [| exact Hall]. intros r Hr. now apply complete_iff.
  - intros r. unfold dropna. rewrite filter_In, complete_iff. tauto.
  - exact Hload.
  - intros r _ Hnull Hin. rewrite Hload in Hin.
    apply filter_In in Hin. destruct Hin as [_ Hc].
    apply complete_iff in Hc. destruct Hc as (H1 & H2 & H3).
    destruct Hnull as [H | [H | H]]; congruence.
Qed.

(** C4: the filter returns exactly the records of the selected year whose
    account code and month label are among the selected ones, in their
    original order, and an empty selection of codes or of months gives the
    empty subset. *)
Theorem filter_records_exact (records : list Row) (year : Z)
        (account_codes months : list string) :
  filter_records records year account_codes months
  = filter (fun r => (Year r =? year) && isin (Account_Code r) account_codes
                     && isin (Month r) months) records
  /\ (forall r, In r (filter_records records year account_codes months) <->
                In r records /\ Year r = year
                /\ In (Account_Code r) account_codes /\ In (Month r) months)
  /\ filter_records records year [] months = []
  /\ filter_records records year account_codes [] = [].
Proof.
  split; [| split; [| split]].
  - unfold filter_records, filtered_df, df_year.
    induction records as [| r rs IH]; simpl; [reflexivity |].
    destruct (Year r =? year); simpl; [| exact IH].
    destruct (isin (Account_Code r) account_codes && isin (Month r) months);
      simpl; now rewrite IH.
  - intros r. apply filter_records_In.
  - unfold filter_records, filtered_df.
    induction (df_year records year) as [| r rs IH]; simpl; [reflexivity | exact IH].
  - unfold filter_records, filtered_df.
    induction (df_year records year) as [| r rs IH]; simpl; [reflexivity |].
    rewrite andb_false_r. exact IH.
Qed.

(** C6: the filter's output is a subset of its input, and filtering the
    output again with the same year, codes and months leaves it unchanged. *)
Theorem filter_records_subset_idempotent (records : list Row) (year : Z)
        (account_codes months : list string) :
  incl (filter_records records year account_codes months) records
  /\ filter_records (filter_records records year account_codes months)
                    year account_codes months
     = filter_records records year account_codes months.
Proof.
  split.
  - intros r Hr. apply filter_records_In in Hr. tauto.
  - unfold filter_records, filtered_df, df_year.
    set (p := fun r : Row => Year r =? year).
    set (q := fun r : Row => isin (Account_Code r) account_codes
                             && isin (Month r) months).
    assert (Hpq : forall l, filter p (filter q (filter p l)) = filter q (filter p l)).
    { induction l as [| x l IH]; simpl; [reflexivity |].
      destruct (p x) eqn:Ep; simpl; [| exact IH].
      destruct (q x) eqn:Eq; simpl; [rewrite Ep, IH; reflexivity | exact IH]. }
    rewrite Hpq. apply filter_filter_same.
Qed.

(** ** Facts about the primitives *)

Section SortingFacts.
Context {A : Type} (le : A -> A -> bool).
Hypothesis le_total : forall x y, le x y = true \/ le y x = true.
Hypothesis le_trans : forall x y z, le x y = true -> le y z = true -> le x z = true.

Lemma insert_sorted_perm (x : A) (l : list A) :
  Permutation (insert_sorted le x l) (x :: l).
Proof.
  induction l as [| y l IH]; simpl; [reflexivity |].
  destruct (le x y); [reflexivity |].
  rewrite IH. apply perm_swap.
Qed.

Lemma sort_with_perm (l : list A) : Permutation (sort_with le l) l.
Proof.
  induction l as [| x l IH]; simpl; [reflexivity |].
  rewrite insert_sorted_perm. now apply perm_skip.
Qed.

Lemma sort_with_In (l : list A) (x : A) : In x (sort_with le l) <-> In x l.
Proof.
  split; apply Permutation_in; [| symmetry]; apply sort_with_perm.
Qed.

Lemma insert_sorted_sorted (x : A) (l : list A) :
  StronglySorted (fun a b => le a b = true) l ->
  StronglySorted (fun a b => le a b = true) (insert_sorted le x l).
Proof.
  induction 1 as [| y l Hl IH Hy]; simpl.
  - constructor; constructor.
  - destruct (le x y) eqn:E.
    + constructor; [constructor; assumption |].
      constructor; [exact E |].
      eapply Forall_impl; [| exact Hy]. intros z Hz. now apply le_trans with y.
    + constructor; [exact IH |].
      assert (Hyx : le y x = true) by (destruct (le_total x y); congruence).
      apply Forall_forall. intros z Hz.
      apply (Permutation_in _ (insert_sorted_perm x l)) in Hz.
      destruct Hz as [<- | Hz]; [exact Hyx |].
      rewrite Forall_forall in Hy. now apply Hy.
Qed.

Lemma sort_with_sorted (l : list A) :
  StronglySorted (fun a b => le a b = true) (sort_with le l).
Proof.
  induction l as [| x l IH]; simpl; [constructor |].
  now apply insert_sorted_sorted.
Qed.

Hypothesis le_antisym : forall x y, le x y = true -> le y x = true -> x = y.


End SortingFacts.



Lemma sorted_strings_In (l : list string) (x : string) :
  In x (sorted_strings l) <-> In x l.
Proof. apply sort_with_In. Qed.


Lemma unique_In (l : list string) (x : string) : In x (unique l) <-> In x l.
Proof.
  induction l as [| y l IH]; simpl; [tauto |].
  rewrite filter_In, IH, negb_true_iff, String.eqb_neq.
  destruct (String.eqb_spec y x); intuition congruence.
Qed.

Lemma unique_NoDup (l : list string) : NoDup (unique l).
Proof.
  induction l as [| y l IH]; simpl; constructor.
  - rewrite filter_In, negb_true_iff, String.eqb_neq. intros [_ H]. now apply H.
  - now apply NoDup_filter.
Qed.


Lemma filter_perm {A : Type} (p : A -> bool) (l1 l2 : list A) :
  Permutation l1 l2 -> Permutation (filter p l1) (filter p l2).
Proof.
  induction 1 as [| x l1 l2 _ IH | x y l | l1 l2 l3 _ IH1 _ IH2]; simpl.
  - reflexivity.
  - destruct (p x); [now apply perm_skip | exact IH].
  - destruct (p x), (p y); try reflexivity. apply perm_swap.
  - now transitivity (filter p l2).
Qed.

Lemma group_keys_In (key : Row -> string) (data : list Row) (k : string) :
  In k (group_keys key data) <-> In k (map key data).
Proof. unfold group_keys. now rewrite sorted_strings_In, unique_In. Qed.


(** ** Summary metrics *)

Lemma filtered_df_no_codes (dfy : list Row) (months : list string) :
  filtered_df dfy [] months = [].
Proof.
  unfold filtered_df. induction dfy as [| r rs IH]; simpl; [reflexivity | exact IH].
Qed.


(** C3: with no account code selected the filtered subset is empty; on an
    empty subset the metrics are computed and shown without an exception:
    the count is 0, the total is 0, the average is NaN and is displayed as
    [$nan]. *)
Theorem empty_subset_metrics :
  (forall records year months, filter_records records year [] months = [])
  /\ summaryMetrics [] = mkMetrics 0 zero FNaN
  /\ KPIs [] = ([ st_markdown "### Key Metrics";
                  st_metric "Total Transactions" "0";
                  st_metric "Total Amount" "$0.00";
                  st_metric "Avg per Transaction" "$nan" ], inr tt)
  /\ (forall subset, snd (KPIs subset) = inr tt).
Proof.
  split; [| split; [| split]].
  - intros records year months. apply filtered_df_no_codes.
  - unfold summaryMetrics. cbn [map List.length Series_mean].
    now rewrite Series_sum_empty.
  - unfold KPIs. cbn [map List.length Series_mean fmt_comma_2f].
    rewrite Series_sum_empty, format_amount_zero. reflexivity.
  - reflexivity.
Qed.

(** ** Running without the charting library *)

(** Lines 35-160 with the name [px] unbound: what the page shows is what
    it shows with the library, every chart replaced by its warning, and it
    ends the same way. *)
Lemma page_without_plotly (s : Session) (msg : string) :
  plotly s = ModuleNotFoundError msg ->
  fst (page s) = map degrade (fst (page (with_plotly s Imported)))
  /\ snd (page s) = snd (page (with_plotly s Imported)).
Proof.
  destruct s as [p v pl up y codes months]. cbn [plotly]. intros ->.
  unfold page, with_plotly, dashboard.
  cbn [plotly sys_version pip_list uploaded_file selected_year selected_codes selected_months].
  destruct up as [sheet |];
    [destruct (pivot_with_total (df_year (load sheet) y) codes months) |];
    split; reflexivity.
Qed.

(** C9, as the code behaves: when the import of the charting library raises
    [ModuleNotFoundError] the run shows the diagnostics (the failed import,
    the interpreter's version, the outcome of the package listing, a notice
    that the app proceeds) and nothing else: [st.set_page_config] on line 33
    then raises, because the diagnostics were shown before it, and the run
    ends there without a metric, a table, a chart or a chart warning.  An
    import that fails with another [ImportError] is not caught and ends the
    run at once. *)
Theorem import_failure_ends_run_at_set_page_config (s : Session) :
  (forall msg,
     plotly s = ModuleNotFoundError msg ->
     fst (script s) = fst (import_plotly s)
     /\ (exists listing,
           fst (import_plotly s)
           = st_error ("Failed to import package: " ++ msg)
               :: st_write ("Python version: " ++ sys_version s)
               :: listing
               ++ [st_write "Proceeding with the app despite the error (charts may not work)."])
     /\ (exists e, snd (script s) = inl (StreamlitAPIException e))
     /\ existsb is_result (fst (script s)) = false
     /\ existsb is_table_or_chart (fst (script s)) = false)
  /\ (forall msg,
        plotly s = OtherImportError msg -> script s = ([], inl (ImportError msg))).
Proof.
  destruct s as [p v pl up y codes months]. cbn [plotly sys_version]. split.
  - intros msg ->. unfold script, set_page_config, import_plotly.
    cbn [plotly sys_version pip_list].
    destruct pl as [text | msg']; [destruct (contains "plotly" text) |];
      (split; [reflexivity |]);
      (split; [first [eexists [_; _; _]; reflexivity | eexists [_]; reflexivity] |]);
      (split; [eexists; reflexivity |]); split; reflexivity.
  - intros msg ->. reflexivity.
Qed.

(** ** The pivot table *)


Lemma lookup_cell_map (f : string -> cell) (cols : list string) (m : string) :
  lookup_cell cols (map f cols) m = if isin m cols then Some (f m) else None.
Proof.
  induction cols as [| c cols IH]; simpl; [reflexivity |].
  rewrite (String.eqb_sym m c).
  destruct (String.eqb_spec c m) as [-> | _]; simpl; [reflexivity | exact IH].
Qed.

Lemma lookup_row_map (g : string -> list cell) (keys : list string) (k : string) :
  In k keys -> lookup_row (map (fun c => (c, g c)) keys) k = Some (g k).
Proof.
  induction keys as [| c keys IH]; simpl; [tauto |].
  destruct (String.eqb_spec c k) as [-> | Hne]; [reflexivity |].
  intros [H | H]; [contradiction | now apply IH].
Qed.

Lemma pivot_columns (filtered : list Row) (selected_months : list string) :
  columns (pivot filtered selected_months) = selected_months.
Proof. reflexivity. Qed.

Lemma pivot_index (filtered : list Row) (selected_months : list string) :
  index (pivot filtered selected_months) = group_keys Account_Code filtered.
Proof.
  unfold index, pivot, reindex_columns, pivot_table. simpl.
  rewrite !map_map. simpl. apply map_id.
Qed.

(** Every cell of [pivot] is the sum of its (account code, month) group,
    which is 0 for a combination without records. *)
Lemma pivot_rows (filtered : list Row) (selected_months : list string) :
  rows (pivot filtered selected_months)
  = map (fun code =>
           (code,
            map (fun m => Num (Series_sum
                                 (map Base_Amount
                                      (filter (fun r => (Account_Code r =? code)%string
                                                        && (Month r =? m)%string) filtered))))
                selected_months))
        (group_keys Account_Code filtered).
Proof.
  unfold pivot, reindex_columns, pivot_table. simpl. rewrite map_map. simpl.
  apply map_ext. intros code. f_equal. apply map_ext. intros m.
  rewrite lookup_cell_map. unfold agg_cell.
  destruct (isin m (group_keys Month filtered)) eqn:E.
  - destruct (filter _ filtered) as [| r grp] eqn:F; cbn [fillna map].
    + now rewrite Series_sum_empty.
    + reflexivity.
  - destruct (filter _ filtered) as [| r grp] eqn:F;
      [cbn [map]; now rewrite Series_sum_empty |].
    exfalso. assert (Hin : In r (r :: grp)) by now left.
    rewrite <- F in Hin. apply filter_In in Hin. destruct Hin as [Hin Hr].
    apply andb_true_iff in Hr. destruct Hr as [_ Hr]. apply String.eqb_eq in Hr.
    assert (isin m (group_keys Month filtered) = true); [| congruence].
    apply isin_In, group_keys_In. subst m. now apply in_map.
Qed.

Lemma group_keys_filtered_incl (dfy : list Row) (codes months : list string) (k : string) :
  In k (group_keys Account_Code (filtered_df dfy codes months)) ->
  In k (group_keys Account_Code (filter (fun r => isin (Account_Code r) codes) dfy)).
Proof.
  rewrite !group_keys_In, !in_map_iff. intros [r [Hk Hr]]. exists r. split; [exact Hk |].
  unfold filtered_df in Hr. rewrite filter_In in *.
  destruct Hr as [Hin Hp]. apply andb_true_iff in Hp. tauto.
Qed.



(** The rows of the displayed table when the month-filtered subset has at
    least one record. *)
Lemma pivot_with_total_index (dfy : list Row) (codes months : list string) (table : Frame) :
  filtered_df dfy codes months <> [] ->
  pivot_with_total dfy codes months = inr table ->
  index table = group_keys Account_Code (filtered_df dfy codes months).
Proof.
  intros Hne Hpt. unfold pivot_with_total, set_Total in Hpt.
  set (P := pivot (filtered_df dfy codes months) months) in *.
  assert (Hrows : rows P <> []).
  { unfold P. rewrite pivot_rows.
    destruct (filtered_df dfy codes months) as [| r rs] eqn:F; [congruence |].
    assert (Hin : In (Account_Code r) (group_keys Account_Code (r :: rs)))
      by (apply group_keys_In; now left).
    destruct (group_keys Account_Code (r :: rs)); [contradiction | discriminate]. }
  assert (Hsame : ensure_valid_index P (total_pivot dfy codes) = P).
  { unfold ensure_valid_index. destruct (rows P); [congruence | reflexivity]. }
  rewrite Hsame in Hpt.
  destruct (columns (total_pivot dfy codes)) as [| c [| c' cs]]; try discriminate.
  injection Hpt as <-. unfold index. cbn [rows]. rewrite map_map. cbn [fst].
  exact (pivot_index (filtered_df dfy codes months) months).
Qed.

Lemma ensure_valid_index_empty (f value : Frame) :
  rows f = [] -> index (ensure_valid_index f value) = index value.
Proof.
  intros Hf. unfold ensure_valid_index, index. rewrite Hf.
  destruct (rows value) as [| v vs]; [now rewrite Hf |].
  cbn [rows]. rewrite map_map. reflexivity.
Qed.

(** The rows of the displayed table when the month-filtered subset is empty
    although the year subset has records with a selected code: one row for
    each such code. *)
Lemma pivot_with_total_index_empty_subset (dfy : list Row) (codes months : list string)
      (table : Frame) :
  filtered_df dfy codes months = [] ->
  pivot_with_total dfy codes months = inr table ->
  index table
  = group_keys Account_Code (filter (fun r => isin (Account_Code r) codes) dfy).
Proof.
  intros Hnil. unfold pivot_with_total, set_Total, total_pivot. rewrite Hnil.
  destruct (filter (fun r => isin (Account_Code r) codes) dfy) as [| r data] eqn:D;
    [discriminate |].
  cbn [columns]. intros [= <-].
  transitivity (index (ensure_valid_index
                         (pivot [] months)
                         (mkFrame ["Base Amount"]
                                  (map (fun code =>
                                          (code, [Num (group_sum Account_Code (r :: data) code)]))
                                       (group_keys Account_Code (r :: data)))))).
  - unfold index at 1. cbn [rows]. rewrite map_map. reflexivity.
  - rewrite ensure_valid_index_empty by reflexivity.
    unfold index. cbn [rows]. rewrite map_map. cbn [fst]. apply map_id.
Qed.

(** With no account code selected the run shows the metrics and then stops
    at line 121: [total_pivot] has no column to assign. *)
Lemma pivot_with_total_no_codes (dfy : list Row) (months : list string) :
  pivot_with_total dfy [] months
  = inl (ValueError "Cannot set a DataFrame without columns to the column Total").
Proof.
  unfold pivot_with_total, set_Total, total_pivot.
  assert (Hnil : filter (fun r => isin (Account_Code r) []) dfy = [])
    by (induction dfy; simpl; auto).
  now rewrite Hnil.
Qed.




(** ** Month labels and their numbers *)

Lemma label_month_number_strftime (m : month) :
  label_month_number (strftime_b m) = Some (month_number m).
Proof. destruct m; reflexivity. Qed.

Lemma label_month_number_inv (label : string) (n : nat) :
  label_month_number label = Some n ->
  exists m, label = strftime_b m /\ n = month_number m.
Proof.
  unfold label_month_number.
  destruct (find _ all_months) as [m |] eqn:F; [| discriminate].
  intros [= <-]. apply find_some in F. destruct F as [_ F].
  apply String.eqb_eq in F. now exists m.
Qed.

Lemma month_number_inj (a b : month) : month_number a = month_number b -> a = b.
Proof. destruct a, b; simpl; intros H; try reflexivity; discriminate. Qed.

Lemma label_month_number_inj (a b : string) (n : nat) :
  label_month_number a = Some n -> label_month_number b = Some n -> a = b.
Proof.
  intros Ha Hb. apply label_month_number_inv in Ha, Hb.
  destruct Ha as [ma [-> Hma]], Hb as [mb [-> Hmb]].
  f_equal. apply month_number_inj. congruence.
Qed.

Lemma dict_get_set (d : dict) (k k' : string) (v : nat) :
  dict_get (dict_set d k v) k' = if (k =? k')%string then Some v else dict_get d k'.
Proof.
  induction d as [| [k0 v0] d IH]; simpl.
  - reflexivity.
  - destruct (String.eqb_spec k0 k) as [-> | Hne]; simpl.
    + destruct (k =? k')%string; reflexivity.
    + rewrite IH. destruct (String.eqb_spec k0 k') as [-> | Hne'];
        [| reflexivity].
      destruct (String.eqb_spec k k'); [congruence | reflexivity].
Qed.

(** Zipping keys with a function of the keys gives a map that agrees with
    the function on every key. *)
Lemma dict_zip_fold (f : string -> nat) (keys : list string) (d0 : dict) :
  (forall k v, dict_get d0 k = Some v -> v = f k) ->
  let d := fold_left (fun d kv => dict_set d (fst kv) (snd kv))
                     (combine keys (map f keys)) d0 in
  (forall k v, dict_get d k = Some v -> v = f k)
  /\ (forall k, In k keys \/ dict_get d0 k <> None -> dict_get d k <> None).
Proof.
  revert d0. induction keys as [| x keys IH]; intros d0 H0; simpl.
  - split; [exact H0 | intros k [[] | H]; exact H].
  - destruct (IH (dict_set d0 x (f x))) as [IH1 IH2].
    { intros k v. rewrite dict_get_set.
      destruct (String.eqb_spec x k) as [-> | _]; [congruence | apply H0]. }
    split; [exact IH1 |].
    intros k Hk. apply IH2. rewrite dict_get_set.
    destruct (String.eqb_spec x k) as [-> | Hne]; [right; discriminate |].
    destruct Hk as [[Hk | Hk] | Hk]; [contradiction | now left | now right].
Qed.

Lemma Month_label_number (r : Row) : label_month_number (Month r) = Some (Month_Num r).
Proof. apply label_month_number_strftime. Qed.

(** [month_map] holds the calendar number of every month label of the year
    subset, so neither the sort key nor the bar chart's lookup can miss. *)
Lemma month_map_covers (dfy : list Row) (m : string) :
  In m (map Month dfy) -> dict_get (month_map dfy) m = label_month_number m
                          /\ label_month_number m <> None.
Proof.
  intros Hin. unfold month_map, dict_zip.
  set (f := fun label => match label_month_number label with Some n => n | None => 0%nat end).
  assert (Hnum : map Month_Num dfy = map f (map Month dfy)).
  { rewrite map_map. apply map_ext. intros r. unfold f. now rewrite Month_label_number. }
  rewrite Hnum.
  destruct (dict_zip_fold f (map Month dfy) []) as [H1 H2]; [discriminate |].
  apply in_map_iff in Hin. destruct Hin as [r [<- Hr]].
  rewrite Month_label_number.
  specialize (H2 (Month r) (or_introl (in_map Month dfy r Hr))).
  destruct (dict_get _ (Month r)) as [v |] eqn:G; [| congruence].
  apply H1 in G. unfold f in G. rewrite Month_label_number in G. subst v.
  split; [reflexivity | discriminate].
Qed.



Lemma StronglySorted_strengthen {A : Type} (R R' : A -> A -> Prop) (l : list A) :
  StronglySorted R l -> NoDup l ->
  (forall a b, In a l -> In b l -> a <> b -> R a b -> R' a b) ->
  StronglySorted R' l.
Proof.
  induction 1 as [| x l Hl IH Hx]; intros Hnd Himp; [constructor |].
  inversion Hnd as [| ? ? Hnotin Hnd']; subst.
  constructor.
  - apply IH; [exact Hnd' |]. intros a b Ha Hb. apply Himp; now right.
  - rewrite Forall_forall in *. intros y Hy.
    apply Himp; [now left | now right | | now apply Hx].
    intros ->. contradiction.
Qed.

Lemma group_keys_NoDup (key : Row -> string) (data : list Row) :
  NoDup (group_keys key data).
Proof.
  unfold group_keys, sorted_strings.
  eapply Permutation_NoDup; [symmetry; apply sort_with_perm | apply unique_NoDup].
Qed.






(** ** The order of the pivot table's columns *)

(** The options of the month multiselect, which are also its default
    selection, are in calendar order. *)
Lemma sorted_months_calendar_ordered (dfy : list Row) :
  calendar_ordered (sorted_months dfy).
Proof.
  unfold calendar_ordered, sorted_months.
  set (key := month_key (month_map dfy)).
  assert (Hkey : forall m, In m (month_options dfy) ->
                           label_month_number m = Some (key m)).
  { intros m Hm. unfold month_options in Hm. rewrite unique_In in Hm.
    destruct (month_map_covers dfy m Hm) as [Hg Hn].
    unfold key, month_key. rewrite Hg.
    destruct (label_month_number m); [reflexivity | congruence]. }
  apply StronglySorted_strengthen with (R := fun a b => (key a <=? key b)%nat = true).
  - apply sort_with_sorted.
    + intros x y. rewrite !Nat.leb_le. lia.
    + intros x y z. rewrite !Nat.leb_le. lia.
  - eapply Permutation_NoDup; [symmetry; apply sort_with_perm | apply unique_NoDup].
  - intros a b Ha Hb Hne Hle. apply sort_with_In in Ha, Hb.
    exists (key a), (key b). split; [now apply Hkey | split; [now apply Hkey |]].
    apply Nat.leb_le in Hle. assert (key a <> key b); [| lia].
    intros Heq. apply Hne. apply label_month_number_inj with (key a).
    + now apply Hkey.
    + rewrite Heq. now apply Hkey.
Qed.

(** With the default selection the columns of the pivot are in calendar
    order. *)
Lemma pivot_columns_default (dfy : list Row) (codes : list string) :
  calendar_ordered (columns (pivot (filtered_df dfy codes (sorted_months dfy))
                                   (sorted_months dfy))).
Proof. rewrite pivot_columns. apply sorted_months_calendar_ordered. Qed.

(** ** The sidebar's options and the selections *)

Lemma dict_zip_keys (keys : list string) (values : list nat) (d0 : dict) (k : string) :
  dict_get (fold_left (fun d kv => dict_set d (fst kv) (snd kv)) (combine keys values) d0) k
  <> None ->
  In k keys \/ dict_get d0 k <> None.
Proof.
  revert values d0. induction keys as [| x keys IH]; intros values d0; simpl.
  - now right.
  - destruct values as [| v values]; simpl; [now right |].
    intros H. apply IH in H. destruct H as [H | H]; [left; now right |].
    rewrite dict_get_set in H.
    destruct (String.eqb_spec x k) as [-> | _]; [left; now left | now right].
Qed.

(** X1: the options of the month multiselect are exactly the month labels
    that occur in the year subset, each once, in calendar order. *)
Theorem sorted_months_options (dfy : list Row) :
  calendar_ordered (sorted_months dfy)
  /\ NoDup (sorted_months dfy)
  /\ (forall m, In m (sorted_months dfy) <-> In m (map Month dfy)).
Proof.
  split; [apply sorted_months_calendar_ordered | split].
  - unfold sorted_months.
    eapply Permutation_NoDup; [symmetry; apply sort_with_perm | apply unique_NoDup].
  - intros m. unfold sorted_months, month_options. now rewrite sort_with_In, unique_In.
Qed.

(** X2: [month_map] sends the month label of every record of the year subset
    to that record's month number, and has no entry for a label that does not
    occur in the year subset. *)
Theorem month_map_lookup (dfy : list Row) :
  (forall r, In r dfy -> dict_get (month_map dfy) (Month r) = Some (Month_Num r))
  /\ (forall m, ~ In m (map Month dfy) -> dict_get (month_map dfy) m = None).
Proof.
  split.
  - intros r Hr. destruct (month_map_covers dfy (Month r) (in_map Month dfy r Hr)) as [H _].
    rewrite H. apply Month_label_number.
  - intros m Hm. destruct (dict_get (month_map dfy) m) as [v |] eqn:G; [| reflexivity].
    exfalso. apply Hm. unfold month_map, dict_zip in G.
    destruct (dict_zip_keys (map Month dfy) (map Month_Num dfy) [] m) as [H | H];
      [rewrite G; discriminate | exact H | simpl in H; congruence].
Qed.

(** X3: the options of the account-code multiselect are exactly the account
    codes that occur in the year subset, each once. *)
Theorem account_codes_options (dfy : list Row) :
  NoDup (account_codes dfy)
  /\ (forall c, In c (account_codes dfy) <-> In c (map Account_Code dfy)).
Proof.
  split.
  - apply (group_keys_NoDup Account_Code).
  - intros c. apply (group_keys_In Account_Code).
Qed.

Lemma filter_all {A : Type} (p : A -> bool) (l : list A) :
  (forall x, In x l -> p x = true) -> filter p l = l.
Proof.
  induction l as [| x l IH]; intros H; simpl; [reflexivity |].
  rewrite (H x (or_introl eq_refl)). f_equal. apply IH. intros y Hy. apply H. now right.
Qed.

(** X4: with the default selections, all offered account codes and all
    offered months, the filter keeps the whole year subset. *)
Theorem default_selection_keeps_year_subset (df : list Row) (selected_year : Z) :
  let dfy := df_year df selected_year in
  filtered_df dfy (account_codes dfy) (sorted_months dfy) = dfy.
Proof.
  intros dfy. unfold filtered_df. apply filter_all. intros r Hr.
  apply andb_true_iff. split; apply isin_In.
  - apply (group_keys_In Account_Code). now apply in_map.
  - unfold sorted_months, month_options. rewrite sort_with_In, unique_In. now apply in_map.
Qed.

(** X5: the filtered subset depends only on which codes and months are
    selected, not on the order in which they were picked or on repetitions. *)
Theorem filtered_df_selection_as_set (dfy : list Row)
        (codes codes' months months' : list string) :
  (forall c, In c codes <-> In c codes') ->
  (forall m, In m months <-> In m months') ->
  filtered_df dfy codes months = filtered_df dfy codes' months'.
Proof.
  intros Hc Hm. unfold filtered_df. apply filter_ext. intros r.
  assert (E1 : isin (Account_Code r) codes = isin (Account_Code r) codes').
  { apply eq_true_iff_eq. rewrite !isin_In. apply Hc. }
  assert (E2 : isin (Month r) months = isin (Month r) months').
  { apply eq_true_iff_eq. rewrite !isin_In. apply Hm. }
  now rewrite E1, E2.
Qed.

(** X6: selecting more codes or more months never removes a record from the
    filtered subset. *)
Theorem filtered_df_monotone (dfy : list Row) (codes codes' months months' : list string) :
  incl codes codes' -> incl months months' ->
  incl (filtered_df dfy codes months) (filtered_df dfy codes' months').
Proof.
  intros Hc Hm r. unfold filtered_df. rewrite !filter_In, !andb_true_iff, !isin_In.
  intros (Hin & H1 & H2). auto.
Qed.

(** ** The displayed table, row by row *)

Lemma ensure_valid_index_columns (f value : Frame) :
  columns (ensure_valid_index f value) = columns f.
Proof.
  unfold ensure_valid_index. destruct (rows f), (rows value); reflexivity.
Qed.

Lemma ensure_valid_index_no_rows (f value : Frame) :
  rows f = [] ->
  rows (ensure_valid_index f value)
  = map (fun row => (fst row, map (fun _ : string => NaN) (columns f))) (rows value).
Proof.
  intros Hf. unfold ensure_valid_index. rewrite Hf.
  destruct (rows value); [exact Hf | reflexivity].
Qed.

Lemma ensure_valid_index_some_rows (f value : Frame) :
  rows f <> [] -> ensure_valid_index f value = f.
Proof.
  intros Hf. unfold ensure_valid_index. destruct (rows f); [congruence | reflexivity].
Qed.

Lemma group_keys_nonempty (key : Row -> string) (r : Row) (data : list Row) :
  group_keys key (r :: data) <> [].
Proof.
  assert (Hin : In (key r) (group_keys key (r :: data)))
    by (apply group_keys_In; now left).
  intros E. now rewrite E in Hin.
Qed.

(** What line 121 leaves in [pivot], case by case. *)
Lemma displayed_table (dfy : list Row) (codes months : list string) :
  pivot_with_total dfy codes months
  = match filter (fun r => isin (Account_Code r) codes) dfy with
    | [] => inl (ValueError "Cannot set a DataFrame without columns to the column Total")
    | r0 :: d =>
        inr (mkFrame
               (months ++ ["Total"])
               (match filtered_df dfy codes months with
                | [] =>
                    map (fun code =>
                           (code,
                            map (fun _ : string => NaN) months
                                ++ [Num (group_sum Account_Code (r0 :: d) code)]))
                        (group_keys Account_Code (r0 :: d))
                | f0 :: fs =>
                    map (fun code =>
                           (code,
                            map (fun m =>
                                   Num (Series_sum
                                          (map Base_Amount
                                               (filter (fun r => (Account_Code r =? code)%string
                                                                 && (Month r =? m)%string)
                                                       (f0 :: fs)))))
                                months
                                ++ [Num (group_sum Account_Code (r0 :: d) code)]))
                        (group_keys Account_Code (f0 :: fs))
                end))
    end.
Proof.
  unfold pivot_with_total, set_Total.
  assert (Hincl : forall k, In k (group_keys Account_Code (filtered_df dfy codes months)) ->
                            In k (group_keys Account_Code
                                    (filter (fun r => isin (Account_Code r) codes) dfy)))
    by (intros k; apply group_keys_filtered_incl).
  unfold total_pivot.
  destruct (filter (fun r => isin (Account_Code r) codes) dfy) as [| r0 d]; [reflexivity |].
  cbn [columns].
  set (V := mkFrame ["Base Amount"]
                    (map (fun code => (code, [Num (group_sum Account_Code (r0 :: d) code)]))
                         (group_keys Account_Code (r0 :: d)))).
  assert (Haligned : forall code, In code (group_keys Account_Code (r0 :: d)) ->
                                  aligned V code = Num (group_sum Account_Code (r0 :: d) code)).
  { intros code Hc. unfold aligned, V. cbn [rows].
    now rewrite (lookup_row_map (fun c => [Num (group_sum Account_Code (r0 :: d) c)])). }
  rewrite ensure_valid_index_columns, pivot_columns. f_equal. f_equal.
  destruct (filtered_df dfy codes months) as [| f0 fs] eqn:F.
  - rewrite ensure_valid_index_no_rows by reflexivity.
    unfold V in *. cbn [rows]. rewrite !map_map. cbn [fst snd]. rewrite pivot_columns.
    apply map_ext_in. intros code Hc. now rewrite (Haligned code Hc).
  - rewrite ensure_valid_index_some_rows.
    + rewrite pivot_rows, map_map. cbn [fst snd].
      apply map_ext_in. intros code Hc. now rewrite (Haligned code (Hincl code Hc)).
    + rewrite pivot_rows. intros E. apply map_eq_nil in E.
      now apply (group_keys_nonempty Account_Code f0 fs).
Qed.

(** X7: the run can build the pivot table exactly when some record of the
    year subset carries a selected account code; otherwise the assignment of
    the [Total] column raises [ValueError]. *)
Theorem pivot_with_total_built_iff (dfy : list Row) (codes months : list string) :
  ((exists r, In r dfy /\ In (Account_Code r) codes) <->
   exists table, pivot_with_total dfy codes months = inr table)
  /\ ((forall r, In r dfy -> ~ In (Account_Code r) codes) <->
      pivot_with_total dfy codes months
      = inl (ValueError "Cannot set a DataFrame without columns to the column Total")).
Proof.
  rewrite displayed_table.
  destruct (filter (fun r => isin (Account_Code r) codes) dfy) as [| r0 d] eqn:D.
  - assert (Hnone : forall r, In r dfy -> ~ In (Account_Code r) codes).
    { intros r Hr Hc. assert (Hin : In r []); [| contradiction].
      rewrite <- D. apply filter_In. split; [exact Hr | now apply isin_In]. }
    split; split; try easy.
    + intros [r [Hr Hc]]. now destruct (Hnone r Hr).
    + intros [table H]. discriminate.
  - assert (Hsome : In r0 dfy /\ In (Account_Code r0) codes).
    { assert (Hin : In r0 (r0 :: d)) by now left.
      rewrite <- D in Hin. apply filter_In in Hin. now rewrite isin_In in Hin. }
    split; split; try easy.
    + intros _. eauto.
    + intros _. now exists r0.
    + intros Hnone. destruct Hsome as [Hr Hc]. now destruct (Hnone r0 Hr).
Qed.

(** X8: the displayed table has the selected months, in the order of the
    selection, followed by [Total] as its columns, and every row has one
    cell for each column. *)
Theorem displayed_table_shape (dfy : list Row) (codes months : list string) (table : Frame) :
  pivot_with_total dfy codes months = inr table ->
  columns table = months ++ ["Total"]
  /\ Forall (fun row => List.length (snd row) = List.length (columns table)) (rows table).
Proof.
  rewrite displayed_table.
  destruct (filter (fun r => isin (Account_Code r) codes) dfy) as [| r0 d];
    [discriminate |].
  intros [= <-]. cbn [columns rows]. split; [reflexivity |].
  apply Forall_forall. intros row Hrow.
  destruct (filtered_df dfy codes months);
    apply in_map_iff in Hrow; destruct Hrow as [code [<- _]]; cbn [snd];
    now rewrite !length_app, !length_map.
Qed.

(** X9: no account code has two rows in the displayed table. *)
Theorem displayed_table_rows_distinct (dfy : list Row) (codes months : list string)
        (table : Frame) :
  pivot_with_total dfy codes months = inr table -> NoDup (index table).
Proof.
  rewrite displayed_table.
  destruct (filter (fun r => isin (Account_Code r) codes) dfy) as [| r0 d];
    [discriminate |].
  intros [= <-]. unfold index. cbn [rows].
  destruct (filtered_df dfy codes months); rewrite map_map; cbn [fst]; rewrite map_id;
    apply group_keys_NoDup.
Qed.

(** X10: when the month-filtered subset has at least one record, no cell of
    the displayed table is missing: every month cell and every [Total] cell
    holds a number. *)
Theorem displayed_table_without_NaN (dfy : list Row) (codes months : list string)
        (table : Frame) :
  filtered_df dfy codes months <> [] ->
  pivot_with_total dfy codes months = inr table ->
  forall code cells, In (code, cells) (rows table) -> ~ In NaN cells.
Proof.
  intros Hne. rewrite displayed_table.
  destruct (filter (fun r => isin (Account_Code r) codes) dfy) as [| r0 d];
    [discriminate |].
  destruct (filtered_df dfy codes months) as [| f0 fs]; [congruence |].
  intros [= <-] code cells Hrow. cbn [rows] in Hrow.
  apply in_map_iff in Hrow. destruct Hrow as [c [[= <- <-] _]].
  intros Hin. apply in_app_or in Hin. destruct Hin as [Hin | [Hin | []]].
  - apply in_map_iff in Hin. destruct Hin as [m [Hm _]]. discriminate.
  - discriminate.
Qed.

(** X14: the account totals hold one entry for each account code of the
    subset, with the sum pandas computes over that account's base amounts. *)
Theorem code_totals_per_account (subset : list Row) :
  NoDup (map fst (code_totals subset))
  /\ (forall c, In c (map fst (code_totals subset)) <-> In c (map Account_Code subset))
  /\ (forall c total,
        In (c, total) (code_totals subset) ->
        total = Series_sum (map Base_Amount
                                (filter (fun r => (Account_Code r =? c)%string) subset))).
Proof.
  assert (Hkeys : map fst (code_totals subset) = group_keys Account_Code subset).
  { unfold code_totals, groupby_sum. rewrite map_map. cbn [fst]. apply map_id. }
  rewrite Hkeys. split; [apply group_keys_NoDup | split].
  - intros c. apply group_keys_In.
  - intros c total Hin. unfold code_totals, groupby_sum in Hin.
    apply in_map_iff in Hin. destruct Hin as [k [[= <- <-] _]]. reflexivity.
Qed.

Lemma filter_none {A : Type} (p : A -> bool) (l : list A) :
  (forall x, In x l -> p x = false) -> filter p l = [].
Proof.
  induction l as [| x l IH]; intros H; simpl; [reflexivity |].
  rewrite (H x (or_introl eq_refl)). apply IH. intros y Hy. apply H. now right.
Qed.

(** ** The run as a whole *)

Lemma dashboard_outcome (s : Session) (sheet : list RawRow) :
  snd (dashboard s sheet)
  = match pivot_with_total (df_year (load sheet) (selected_year s))
                           (selected_codes s) (selected_months s) with
    | inl e => inl e
    | inr _ => inr tt
    end.
Proof.
  destruct s as [p v pl up y codes months]. unfold dashboard.
  cbn [plotly selected_year selected_codes selected_months].
  destruct (pivot_with_total (df_year (load sheet) y) codes months);
    destruct p; reflexivity.
Qed.

(** X16: the block under [if uploaded_file:] (lines 56-160), run with
    selected account codes that are offered options, ends normally when at
    least one code is selected, and ends with the [ValueError] of the
    [Total] assignment when none is. *)
Theorem dashboard_outcome_by_code_selection (s : Session) (sheet : list RawRow) :
  multiselect_value (account_codes (df_year (load sheet) (selected_year s)))
                    (selected_codes s) ->
  (selected_codes s <> [] -> snd (dashboard s sheet) = inr tt)
  /\ (selected_codes s = [] ->
      snd (dashboard s sheet)
      = inl (ValueError "Cannot set a DataFrame without columns to the column Total")).
Proof.
  intros [_ Hincl]. rewrite dashboard_outcome, displayed_table. split.
  - intros Hne.
    destruct (selected_codes s) as [| c cs] eqn:C; [congruence |].
    assert (Hc : In c (map Account_Code (df_year (load sheet) (selected_year s)))).
    { apply (group_keys_In Account_Code). apply Hincl. now left. }
    apply in_map_iff in Hc. destruct Hc as [r [Hrc Hr]].
    destruct (filter _ (df_year (load sheet) (selected_year s))) as [| r0 d] eqn:D;
      [| reflexivity].
    exfalso. assert (Hin : In r []); [| contradiction].
    rewrite <- D. apply filter_In. split; [exact Hr |].
    apply isin_In. rewrite Hrc. now left.
  - intros ->.
    assert (Hnil : filter (fun r => isin (Account_Code r) [])
                          (df_year (load sheet) (selected_year s)) = [])
      by (apply filter_none; reflexivity).
    now rewrite Hnil.
Qed.

Lemma KPIs_events (subset : list Row) :
  fst (KPIs subset)
  = [ st_markdown "### Key Metrics";
      st_metric "Total Transactions" (fmt_thousands (N.of_nat (List.length subset)));
      st_metric "Total Amount"
                ("$" ++ format_amount (Series_sum (map Base_Amount subset)));
      st_metric "Avg per Transaction"
                ("$" ++ fmt_comma_2f (Series_mean (map Base_Amount subset))) ].
Proof. reflexivity. Qed.

(** X17: the average metric shows [$nan] exactly when the filtered subset is
    empty. *)
Theorem average_metric_nan_iff_empty (subset : list Row) :
  In (st_metric "Avg per Transaction" "$nan") (fst (KPIs subset)) <-> subset = [].
Proof.
  rewrite KPIs_events. split.
  - intros [H | [H | [H | [H | []]]]]; try discriminate.
    injection H as H. destruct subset as [| r rs]; [reflexivity |].
    cbn [map Series_mean fmt_comma_2f] in H. now apply format_float_finite in H.
  - intros ->. in_events.
Qed.

(** X18: with the charting library imported and the pivot table built, the
    block under [if uploaded_file:] shows the bar chart of the monthly totals
    and the pie chart of the account totals of the filtered subset, and shows
    no warning or error. *)
Theorem charts_shown_when_imported (s : Session) (sheet : list RawRow) (table : Frame) :
  plotly s = Imported ->
  let dfy := df_year (load sheet) (selected_year s) in
  let filtered := filtered_df dfy (selected_codes s) (selected_months s) in
  pivot_with_total dfy (selected_codes s) (selected_months s) = inr table ->
  In (st_plotly_chart (bar_fig (monthly_totals (month_map dfy) filtered)))
     (fst (dashboard s sheet))
  /\ In (st_plotly_chart (pie_fig (code_totals filtered))) (fst (dashboard s sheet))
  /\ existsb is_alert (fst (dashboard s sheet)) = false.
Proof.
  destruct s as [p v pl up y codes months].
  cbn [plotly selected_year selected_codes selected_months].
  intros -> Hpt. unfold dashboard.
  cbn [plotly selected_year selected_codes selected_months].
  rewrite Hpt. split; [in_events | split; [in_events | reflexivity]].
Qed.

Lemma prefix_occurs (needle hay : string) :
  prefix needle hay = true <-> exists after : string, hay = (needle ++ after)%string.
Proof.
  revert hay. induction needle as [| c needle IH]; intros hay.
  - split; [intros _; now exists hay | destruct hay; reflexivity].
  - destruct hay as [| c' hay]; simpl;
      [split; [discriminate | intros [a H]; discriminate] |].
    destruct (ascii_dec c c') as [-> | Hne].
    + rewrite IH. split; intros [a H]; exists a; [now rewrite H | now injection H].
    + split; [discriminate | intros [a H]; congruence].
Qed.

Lemma contains_unfold (needle hay : string) :
  contains needle hay
  = prefix needle hay
    || match hay with
       | EmptyString => false
       | String _ rest => contains needle rest
       end.
Proof. destruct hay; reflexivity. Qed.

Lemma contains_occurs_in (needle hay : string) :
  contains needle hay = true <-> occurs_in needle hay.
Proof.
  unfold occurs_in. split.
  - induction hay as [| c hay IH]; rewrite contains_unfold, orb_true_iff.
    + intros [H | H]; [| discriminate]. apply prefix_occurs in H.
      destruct H as [a H]. exists "", a. exact H.
    + intros [H | H].
      * apply prefix_occurs in H. destruct H as [a H]. exists "", a. exact H.
      * destruct (IH H) as [b [a E]]. exists (String c b), a. simpl. now rewrite E.
  - intros [before [after ->]].
    induction before as [| c before IH]; rewrite contains_unfold; apply orb_true_iff.
    + left. apply prefix_occurs. now exists after.
    + right. exact IH.
Qed.

(** X19: when the import fails and the package listing succeeds, the run
    reports that Plotly is not installed exactly when the text [plotly] does
    not occur in the listing. *)
Theorem not_installed_reported_iff (s : Session) (msg text : string) :
  plotly s = ModuleNotFoundError msg ->
  pip_list s = pip_output text ->
  (In (st_error "Plotly is not installed in the environment.") (fst (import_plotly s))
   <-> ~ occurs_in "plotly" text).
Proof.
  destruct s as [p v pl up y codes months]. cbn [plotly pip_list]. intros -> ->.
  unfold import_plotly. cbn [plotly pip_list sys_version].
  rewrite <- contains_occurs_in.
  destruct (contains "plotly" text); cbn.
  - split; [| congruence]. intros H. exfalso.
    repeat (destruct H as [H | H]; [discriminate |]). exact H.
  - split; [congruence | intros _]. repeat first [left; reflexivity | right].
Qed.

(** ** The year selectbox and the first view after an upload *)

Lemma unique_years_In (l : list Z) (x : Z) : In x (unique_years l) <-> In x l.
Proof.
  induction l as [| y l IH]; simpl; [tauto |].
  rewrite filter_In, IH, negb_true_iff, Z.eqb_neq.
  destruct (Z.eq_dec y x); intuition congruence.
Qed.

Lemma unique_years_NoDup (l : list Z) : NoDup (unique_years l).
Proof.
  induction l as [| y l IH]; simpl; constructor.
  - rewrite filter_In, negb_true_iff, Z.eqb_neq. intros [_ H]. now apply H.
  - now apply NoDup_filter.
Qed.

(** X20: the options of the year selectbox are exactly the years that occur
    in the loaded records, in strictly descending order, and the year subset
    of an offered year is not empty. *)
Theorem year_options_offered (df : list Row) :
  StronglySorted (fun a b => b < a) (year_options df)
  /\ (forall y, In y (year_options df) <-> In y (map Year df))
  /\ (forall y, In y (year_options df) -> df_year df y <> []).
Proof.
  assert (Hin : forall y, In y (year_options df) <-> In y (map Year df)).
  { intros y. unfold year_options. now rewrite sort_with_In, unique_years_In. }
  split; [| split; [exact Hin |]].
  - unfold year_options.
    apply StronglySorted_strengthen with (R := fun a b => (b <=? a) = true).
    + apply sort_with_sorted.
      * intros x y. rewrite !Z.leb_le. lia.
      * intros x y z. rewrite !Z.leb_le. lia.
    + eapply Permutation_NoDup; [symmetry; apply sort_with_perm | apply unique_years_NoDup].
    + intros a b _ _ Hne Hle. apply Z.leb_le in Hle. lia.
  - intros y Hy. apply Hin, in_map_iff in Hy. destruct Hy as [r [Hyr Hr]].
    intros E. assert (Hr' : In r (df_year df y)); [| now rewrite E in Hr'].
    unfold df_year. apply filter_In. split; [exact Hr | now apply Z.eqb_eq].
Qed.

(** X21: for an offered year and the default selections, the pivot table is
    built: it has one row for each offered account code, the offered months
    in calendar order followed by [Total] as its columns, and no missing
    cell. *)
Theorem default_view (df : list Row) (selected_year : Z) :
  In selected_year (year_options df) ->
  let dfy := df_year df selected_year in
  exists table,
    pivot_with_total dfy (account_codes dfy) (sorted_months dfy) = inr table
    /\ index table = account_codes dfy
    /\ columns table = sorted_months dfy ++ ["Total"]
    /\ calendar_ordered (sorted_months dfy)
    /\ (forall code cells, In (code, cells) (rows table) -> ~ In NaN cells).
Proof.
  intros Hy dfy.
  assert (Hne : dfy <> []).
  { unfold dfy. intros E.
    assert (Hin : In selected_year (map Year df)).
    { unfold year_options in Hy. now rewrite sort_with_In, unique_years_In in Hy. }
    apply in_map_iff in Hin. destruct Hin as [r [Hyr Hr]].
    assert (Hr' : In r (df_year df selected_year)); [| now rewrite E in Hr'].
    unfold df_year. apply filter_In. split; [exact Hr | now apply Z.eqb_eq]. }
  assert (Hdata : filter (fun r => isin (Account_Code r) (account_codes dfy)) dfy = dfy).
  { apply filter_all. intros r Hr. apply isin_In, (group_keys_In Account_Code).
    now apply in_map. }
  assert (Hfiltered : filtered_df dfy (account_codes dfy) (sorted_months dfy) = dfy).
  { unfold filtered_df. apply filter_all. intros r Hr.
    apply andb_true_iff. split; apply isin_In.
    - apply (group_keys_In Account_Code). now apply in_map.
    - unfold sorted_months, month_options. rewrite sort_with_In, unique_In.
      now apply in_map. }
  rewrite displayed_table, Hdata, Hfiltered.
  destruct dfy as [| r0 d] eqn:E; [congruence |].
  eexists. split; [reflexivity |]. cbn [columns rows]. split; [| split; [| split]].
  - unfold index. cbn [rows]. rewrite map_map. cbn [fst]. apply map_id.
  - reflexivity.
  - apply sorted_months_calendar_ordered.
  - intros code cells Hrow. apply in_map_iff in Hrow.
    destruct Hrow as [c [[= <- <-] _]]. intros Hin.
    apply in_app_or in Hin. destruct Hin as [Hin | [Hin | []]]; [| discriminate].
    apply in_map_iff in Hin. destruct Hin as [m [Hm _]]. discriminate.
Qed.

(** X22: the block under [if uploaded_file:] shows the three metrics
    whatever is selected, whether or not the pivot table can be built
    afterwards. *)
Theorem metrics_always_shown (s : Session) (sheet : list RawRow) :
  incl (fst (KPIs (filter_records (load sheet) (selected_year s)
                                  (selected_codes s) (selected_months s))))
       (fst (dashboard s sheet)).
Proof.
  destruct s as [p v pl up y codes months].
  unfold dashboard, filter_records.
  cbn [plotly selected_year selected_codes selected_months].
  rewrite KPIs_events.
  destruct (pivot_with_total (df_year (load sheet) y) codes months);
    destruct p as [| msg | msg];
    intros ev Hev; cbn in Hev; cbn; intuition.
Qed.

(** X23: when the pivot table cannot be built, the block under
    [if uploaded_file:] ends with the exception of the [Total] assignment and
    shows no table, no chart and no chart warning. *)
Theorem nothing_shown_after_failed_Total (s : Session) (sheet : list RawRow) (e : exn) :
  pivot_with_total (df_year (load sheet) (selected_year s))
                   (selected_codes s) (selected_months s) = inl e ->
  snd (dashboard s sheet) = inl e
  /\ existsb is_table_or_chart (fst (dashboard s sheet)) = false.
Proof.
  destruct s as [p v pl up y codes months].
  cbn [selected_year selected_codes selected_months]. intros Hpt.
  unfold dashboard. cbn [plotly selected_year selected_codes selected_months].
  rewrite Hpt. split; reflexivity.
Qed.

End Facts.

(** ** The pipeline on the sample sheet *)

(** C1, on the sample sheet with the months picked in the order March,
    January (a value the multiselect can return): the columns of the pivot
    are March, January, the order of the selection, which is not calendar
    order; the cell of an account without records in a month is 0. *)
Theorem pivot_columns_keep_selection_order :
  let dfy := df_year (load sample_sheet) 2024 in
  let codes := ["A100"; "B200"; "C300"] in
  sorted_months dfy = ["Jan"; "Feb"; "Mar"]
  /\ multiselect_value (sorted_months dfy) ["Mar"; "Jan"]
  /\ multiselect_value (account_codes dfy) codes
  /\ pivot (filtered_df dfy codes ["Mar"; "Jan"]) ["Mar"; "Jan"]
     = mkFrame ["Mar"; "Jan"]
               [ ("A100", [Num 0; Num 5000]);
                 ("B200", [Num 0; Num 2000]);
                 ("C300", [Num 700; Num 0]) ]
  /\ ~ calendar_ordered
         (columns (pivot (filtered_df dfy codes ["Mar"; "Jan"]) ["Mar"; "Jan"])).
Proof.
  cbv zeta. split; [reflexivity |]. split; [valid_selection |].
  split; [valid_selection |]. split; [reflexivity |].
  rewrite pivot_columns. unfold calendar_ordered. intros H.
  inversion H as [| a l _ Hall]; subst.
  inversion Hall as [| b l' (x & y & Hx & Hy & Hlt) _]; subst.
  cbv in Hx, Hy. injection Hx as <-. injection Hy as <-. lia.
Qed.

(** C10, on the sample sheet with account C300 and month January selected
    (values the two multiselects can return): all of C300's records of 2024
    fall in March, so the month-filtered subset is empty, and yet the
    displayed table has a row for C300, with a missing January cell and its
    year-wide total of 7.00. *)
Theorem pivot_row_for_code_outside_subset :
  let dfy := df_year (load sample_sheet) 2024 in
  multiselect_value (account_codes dfy) ["C300"]
  /\ multiselect_value (sorted_months dfy) ["Jan"]
  /\ filtered_df dfy ["C300"] ["Jan"] = []
  /\ group_keys Account_Code (filtered_df dfy ["C300"] ["Jan"]) = []
  /\ pivot_with_total dfy ["C300"] ["Jan"]
     = inr (mkFrame ["Jan"; "Total"] [("C300", [NaN; Num 700])]).
Proof.
  cbv zeta. split; [valid_selection |]. split; [valid_selection |].
  repeat split; reflexivity.
Qed.

Lemma load_drops_null_rows_witness :
  In (mkRaw None (Some "A100") (Some 1234)) sample_sheet
  /\ ~ In (mkRaw None (Some "A100") (Some 1234)) (map of_row (load sample_sheet)).
Proof.
  assert (Hin : In (mkRaw None (Some "A100") (Some 1234)) sample_sheet)
    by (simpl; tauto).
  split; [exact Hin |].
  destruct (load_drops_null_rows sample_sheet) as (_ & _ & _ & H).
  apply (H _ Hin). left. reflexivity.
Defined.



Lemma import_failure_ends_run_at_set_page_config_witness :
  existsb is_result
          (fst (script (sample_session (ModuleNotFoundError "No module named plotly")
                                       ["A100"; "B200"] ["Jan"; "Feb"]))) = false.
Proof.
  destruct (import_failure_ends_run_at_set_page_config
              (sample_session (ModuleNotFoundError "No module named plotly")
                              ["A100"; "B200"] ["Jan"; "Feb"])) as [H _].
  destruct (H "No module named plotly" eq_refl) as (_ & _ & _ & Hres & _).
  exact Hres.
Defined.

Lemma month_map_lookup_witness :
  dict_get (month_map (df_year (load sample_sheet) 2024)) "Feb" = Some 2%nat.
Proof.
  destruct (month_map_lookup (df_year (load sample_sheet) 2024)) as [H _].
  apply (H (@mkRow exact_hundredths (mkTimestamp 2024 Feb 10) "A100" 3000)).
  simpl. tauto.
Defined.

Lemma filtered_df_selection_as_set_witness :
  filtered_df (df_year (load sample_sheet) 2024) ["B200"; "A100"] ["Mar"; "Jan"; "Mar"]
  = filtered_df (df_year (load sample_sheet) 2024) ["A100"; "B200"] ["Jan"; "Mar"].
Proof.
  apply filtered_df_selection_as_set; intros x; simpl; tauto.
Defined.

Lemma filtered_df_monotone_witness :
  incl (filtered_df (df_year (load sample_sheet) 2024) ["A100"] ["Jan"])
       (filtered_df (df_year (load sample_sheet) 2024) ["A100"; "B200"] ["Jan"; "Feb"]).
Proof.
  apply filtered_df_monotone; intros x Hx; simpl in *; tauto.
Defined.

Lemma displayed_table_shape_witness :
  columns (@mkFrame exact_hundredths ["Feb"; "Total"] [("A100", [@Num exact_hundredths 3000; @Num exact_hundredths 8000])]) = ["Feb"] ++ ["Total"].
Proof.
  apply (displayed_table_shape (df_year (load sample_sheet) 2024) ["A100"; "B200"] ["Feb"]).
  reflexivity.
Defined.

Lemma displayed_table_rows_distinct_witness :
  NoDup (index (@mkFrame exact_hundredths ["Jan"; "Total"]
                         [("A100", [@Num exact_hundredths 5000; @Num exact_hundredths 8000]); ("B200", [@Num exact_hundredths 2000; @Num exact_hundredths 2000])])).
Proof.
  apply (displayed_table_rows_distinct
           (df_year (load sample_sheet) 2024) ["B200"; "A100"] ["Jan"]).
  reflexivity.
Defined.

Lemma displayed_table_without_NaN_witness :
  ~ In (@NaN exact_hundredths) [@Num exact_hundredths 3000; @Num exact_hundredths 8000].
Proof.
  apply (displayed_table_without_NaN
           (df_year (load sample_sheet) 2024) ["A100"; "B200"] ["Feb"]
           (@mkFrame exact_hundredths ["Feb"; "Total"] [("A100", [@Num exact_hundredths 3000; @Num exact_hundredths 8000])])
           ltac:(discriminate) eq_refl "A100").
  now left.
Defined.

Lemma code_totals_per_account_witness :
  8000 = Series_sum
           (map Base_Amount
                (filter (fun r => (Account_Code r =? "A100")%string)
                        (filtered_df (df_year (load sample_sheet) 2024)
                                     ["A100"; "B200"] ["Jan"; "Feb"]))).
Proof.
  destruct (code_totals_per_account
              (filtered_df (df_year (load sample_sheet) 2024)
                           ["A100"; "B200"] ["Jan"; "Feb"])) as (_ & _ & H).
  apply H. left. reflexivity.
Defined.

Lemma dashboard_outcome_by_code_selection_witness :
  snd (dashboard (sample_session Imported ["C300"] ["Jan"]) sample_sheet) = inr tt.
Proof.
  destruct (dashboard_outcome_by_code_selection
              (sample_session Imported ["C300"] ["Jan"]) sample_sheet) as [H _].
  - valid_selection.
  - apply H. discriminate.
Defined.

Lemma charts_shown_when_imported_witness :
  existsb is_alert
          (fst (dashboard (sample_session Imported ["A100"; "B200"] ["Jan"; "Feb"])
                          sample_sheet)) = false.
Proof.
  apply (charts_shown_when_imported
           (sample_session Imported ["A100"; "B200"] ["Jan"; "Feb"]) sample_sheet
           (@mkFrame exact_hundredths ["Jan"; "Feb"; "Total"]
                    [ ("A100", [@Num exact_hundredths 5000; @Num exact_hundredths 3000; @Num exact_hundredths 8000]);
                      ("B200", [@Num exact_hundredths 2000; @Num exact_hundredths 0; @Num exact_hundredths 2000]) ])
           eq_refl eq_refl).
Defined.

Lemma not_installed_reported_iff_witness :
  In (st_error "Plotly is not installed in the environment.")
     (fst (import_plotly (sample_session (ModuleNotFoundError "No module named plotly")
                                         ["A100"] ["Jan"])))
  <-> ~ occurs_in "plotly" "pandas 2.2.2".
Proof.
  apply (not_installed_reported_iff
           (sample_session (ModuleNotFoundError "No module named plotly") ["A100"] ["Jan"])
           "No module named plotly" "pandas 2.2.2" eq_refl eq_refl).
Defined.

Lemma year_options_offered_witness : df_year (load sample_sheet) 2023 <> [].
Proof.
  destruct (year_options_offered (load sample_sheet)) as (_ & _ & H).
  apply H. right. now left.
Defined.

Lemma default_view_witness :
  exists table,
    pivot_with_total (df_year (load sample_sheet) 2024)
                     (account_codes (df_year (load sample_sheet) 2024))
                     (sorted_months (df_year (load sample_sheet) 2024)) = inr table
    /\ index table = ["A100"; "B200"; "C300"].
Proof.
  destruct (default_view (load sample_sheet) 2024) as (table & H1 & H2 & _).
  - left. reflexivity.
  - exists table. split; [exact H1 | exact H2].
Defined.

Lemma metrics_always_shown_witness :
  In (st_metric "Total Transactions" "0")
     (fst (dashboard (sample_session Imported [] ["Jan"]) sample_sheet)).
Proof.
  apply (metrics_always_shown (sample_session Imported [] ["Jan"]) sample_sheet).
  right. left. reflexivity.
Defined.

Lemma nothing_shown_after_failed_Total_witness :
  existsb is_table_or_chart
          (fst (dashboard (sample_session Imported [] ["Jan"]) sample_sheet)) = false.
Proof.
  apply (nothing_shown_after_failed_Total
           (sample_session Imported [] ["Jan"]) sample_sheet
           (ValueError "Cannot set a DataFrame without columns to the column Total")
           eq_refl).
Defined.

